(** * bisslog-core: tracing contracts and exception taxonomy

    A shallow embedding of
    - [bisslog_core/ports/tracing/transactional_tracer.py]
      (class [TransactionalTracer]: the two resolution helpers
      [_re_args_with_main] / [_re_args_with_current] and nine abstract
      operations),
    - [bisslog/ports/tracing/service_tracer.py]
      (class [ServiceTracer]: five abstract operations),
    - the two exception families exercised by
      [tests/unit/exceptions/test_domain_exceptions.py] and
      [tests/unit/exceptions/test_external_interaction_errors.py].

    Python methods are functions in a state-and-exception monad whose
    state is the state of the process-wide transaction manager; a Python
    [dict] with string keys is a [gmap string pyval]. *)

From stdpp Require Import base option list strings gmap.

Open Scope string_scope.

(** ** Python values, truthiness *)

(** The values that flow through the tracer helpers.  The helpers'
    parameters are annotated [Optional[str]]; [payload] is an opaque
    [object]. *)
Inductive pyval : Type :=
  | PyNone
  | PyBool (b : bool)
  | PyInt (z : Z)
  | PyStr (s : string).

#[export] Instance pyval_eq_dec : EqDecision pyval.
Proof. solve_decision. Defined.

(** [x is None] *)
Definition is_none (v : pyval) : bool :=
  match v with PyNone => true | _ => false end.

(** Python truth value testing: [None], [False], [0] and [""] are falsy. *)
Definition truthy (v : pyval) : bool :=
  match v with
  | PyNone => false
  | PyBool b => b
  | PyInt z => negb (Z.eqb z 0)
  | PyStr s => negb (String.eqb s "")
  end.

(** [not x] *)
Definition py_not (v : pyval) : bool := negb (truthy v).

(** An argument annotated [Optional[str]]. *)
Definition of_optional_str (o : option string) : pyval :=
  match o with None => PyNone | Some s => PyStr s end.

(** ** Classes and single inheritance *)

(** The classes that occur: the builtin exception classes the code
    relies on, the domain exceptions and the external-interaction
    exceptions. *)
Inductive pyclass : Type :=
  (* builtins *)
  | object_
  | BaseException
  | Exception
  | RuntimeError
  | NotImplementedError
  | TypeError
  (* bisslog.exceptions.domain_exception *)
  | DomainException
  | NotFound
  | NotAllowed
  (* bisslog.exceptions.external_interactions_errors *)
  | ExternalInteractionError
  | WarningExtException
  | ErrorExtException
  | InterfaceExtException
  | ConfigurationExtException
  | ExternalDependencyErrorExtException
  | DataErrorExtException
  | OperationalErrorExtException
  | ConnectionExtException
  | TimeoutExtException
  | AuthenticationExtException
  | AuthorizationExtException
  | DeliveryExtException
  | IntegrityErrorExtException
  | ProgrammingErrorExtException
  | NotSupportedErrorExtException
  | InvalidDataExtException
  | InternalErrorExtException
  | ProcessingExtException.

#[export] Instance pyclass_eq_dec : EqDecision pyclass.
Proof. solve_decision. Defined.

Definition all_classes : list pyclass :=
  [ object_; BaseException; Exception; RuntimeError; NotImplementedError;
    TypeError; DomainException; NotFound; NotAllowed;
    ExternalInteractionError; WarningExtException; ErrorExtException;
    InterfaceExtException; ConfigurationExtException;
    ExternalDependencyErrorExtException; DataErrorExtException;
    OperationalErrorExtException; ConnectionExtException;
    TimeoutExtException; AuthenticationExtException;
    AuthorizationExtException; DeliveryExtException;
    IntegrityErrorExtException; ProgrammingErrorExtException;
    NotSupportedErrorExtException; InvalidDataExtException;
    InternalErrorExtException; ProcessingExtException ].

(** Modelled from the spec: the class statements of
    [bisslog/exceptions/domain_exception.py] and
    [bisslog/exceptions/external_interactions_errors.py], which are not
    among the sources (only their tests are).  The direct base of each
    class follows the tree of section 2 of the specification, which the
    [issubclass] assertions of both test modules agree with:
    [DomainException] with subtypes [NotFound] and [NotAllowed];
    [ExternalInteractionError] branching into [WarningExtException] and
    [ErrorExtException]; [ErrorExtException] into [InterfaceExtException]
    (with [ConfigurationExtException]), [ExternalDependencyErrorExtException]
    (with the data, operational, integrity, programming, not-supported and
    invalid-data errors; the operational one with the connection, timeout,
    authentication, authorization and delivery errors) and
    [InternalErrorExtException] (with [ProcessingExtException]); no test
    looks at the base of [InternalErrorExtException], which is read off
    that sentence.  The builtin classes have their Python bases. *)
Definition base (c : pyclass) : option pyclass :=
  match c with
  | object_ => None
  | BaseException => Some object_
  | Exception => Some BaseException
  | RuntimeError => Some Exception
  | NotImplementedError => Some RuntimeError
  | TypeError => Some Exception
  | DomainException => Some Exception
  | NotFound => Some DomainException
  | NotAllowed => Some DomainException
  | ExternalInteractionError => Some Exception
  | WarningExtException => Some ExternalInteractionError
  | ErrorExtException => Some ExternalInteractionError
  | InterfaceExtException => Some ErrorExtException
  | ConfigurationExtException => Some InterfaceExtException
  | ExternalDependencyErrorExtException => Some ErrorExtException
  | DataErrorExtException => Some ExternalDependencyErrorExtException
  | OperationalErrorExtException => Some ExternalDependencyErrorExtException
  | ConnectionExtException => Some OperationalErrorExtException
  | TimeoutExtException => Some OperationalErrorExtException
  | AuthenticationExtException => Some OperationalErrorExtException
  | AuthorizationExtException => Some OperationalErrorExtException
  | DeliveryExtException => Some OperationalErrorExtException
  | IntegrityErrorExtException => Some ExternalDependencyErrorExtException
  | ProgrammingErrorExtException => Some ExternalDependencyErrorExtException
  | NotSupportedErrorExtException => Some ExternalDependencyErrorExtException
  | InvalidDataExtException => Some ExternalDependencyErrorExtException
  | InternalErrorExtException => Some ErrorExtException
  | ProcessingExtException => Some InternalErrorExtException
  end.

(** The method resolution order of a class under single inheritance: the
    class, then the order of its base.  The recursion follows [base], so
    it is bounded by a fuel. *)
Fixpoint mro_fuel (fuel : nat) (c : pyclass) : list pyclass :=
  match fuel with
  | O => []
  | S fuel' =>
      c :: match base c with
           | None => []
           | Some b => mro_fuel fuel' b
           end
  end.

(** No chain of bases is longer than the number of classes. *)
Definition mro (c : pyclass) : list pyclass :=
  mro_fuel (length all_classes) c.

(** [issubclass(c, d)] *)
Definition issubclass (c d : pyclass) : bool :=
  bool_decide (d ∈ mro c).

(** [d] is [c] or one of its ancestors: the reflexive-transitive closure
    of the direct-base relation. *)
Inductive inherits : pyclass -> pyclass -> Prop :=
  | inherits_refl c : inherits c c
  | inherits_step c b d : base c = Some b -> inherits b d -> inherits c d.

(** The nineteen classes of the external-interaction family. *)
Definition ext_family (c : pyclass) : bool :=
  match c with
  | object_ | BaseException | Exception | RuntimeError | NotImplementedError
  | TypeError | DomainException | NotFound | NotAllowed => false
  | _ => true
  end.

(** ** Exception objects *)

(** An exception instance: its class, the positional arguments kept by
    [BaseException] ([e.args]) and its instance attributes. *)
Record exn : Type := mk_exn {
  exn_class : pyclass;
  exn_args : list pyval;
  exn_attrs : gmap string pyval
}.

(** [isinstance(e, d)] *)
Definition isinstance (e : exn) (d : pyclass) : bool :=
  issubclass (exn_class e) d.

(** [e.name]; [None] stands for [AttributeError]. *)
Definition getattr (e : exn) (name : string) : option pyval :=
  exn_attrs e !! name.

(** [str(e)] of an exception built from one string argument. *)
Definition exn_message (e : exn) : option string :=
  match exn_args e with
  | [PyStr s] => Some s
  | _ => None
  end.

(** ** The monad of method bodies *)

(** A call either returns a value or raises. *)
Inductive outcome (A : Type) : Type :=
  | Returns (a : A)
  | Raises (e : exn).
Arguments Returns {A} a.
Arguments Raises {A} e.

(** A method body run against the state [St] of the transaction manager. *)
Definition M (St A : Type) : Type := St -> outcome A * St.

Definition ret {St A} (a : A) : M St A := fun s => (Returns a, s).

Definition bind {St A B} (m : M St A) (k : A -> M St B) : M St B :=
  fun s =>
    match m s with
    | (Returns a, s') => k a s'
    | (Raises e, s') => (Raises e, s')
    end.

(** [raise e] *)
Definition raise {St A} (e : exn) : M St A := fun s => (Raises e, s).

(** [C(msg)] for a class that inherits [BaseException.__init__]. *)
Definition new_exception (c : pyclass) (msg : string) : exn :=
  mk_exn c [PyStr msg] ∅.

(** [try: body / except d as e: handler(e)].  The clause is matched only
    when the body raises; a class [d] outside [BaseException] is then
    refused with a [TypeError]. *)
Definition try_except {St A} (body : M St A) (d : pyclass) (handler : exn -> M St A)
  : M St A :=
  fun s =>
    match body s with
    | (Returns a, s') => (Returns a, s')
    | (Raises e, s') =>
        if issubclass d BaseException then
          if isinstance e d then handler e s' else (Raises e, s')
        else
          (Raises (new_exception TypeError
             "catching classes that do not inherit from BaseException is not allowed"),
           s')
    end.

Notation "'call' x ':=' m 'in' k" := (bind m (fun x => k))
  (at level 10, x name, m at level 100, k at level 200).

(** ** The transaction manager *)

(** Modelled from the spec: the transaction-context collaborator
    ([bisslog_core/transactional/transaction_manager.py] is not among the
    sources; the tracer only imports its singleton).  It exposes
    [get_main_transaction_id() -> string] and
    [get_transaction_id() -> string].  As any method of a Python object, a
    getter is given the manager's state and leaves a state behind. *)
Record TransactionManager (St : Type) : Type := {
  get_main_transaction_id : St -> string * St;
  get_transaction_id : St -> string * St
}.
Arguments get_main_transaction_id {St} _ _.
Arguments get_transaction_id {St} _ _.

(** A method call on the manager, from inside a tracer method. *)
Definition tm_call {St} (method : St -> string * St) : M St pyval :=
  fun s => let '(r, s') := method s in (Returns (PyStr r), s').

(** A plain transaction context: the outermost and the innermost active
    transaction id. *)
Record context : Type := {
  main_id : string;
  current_id : string
}.

Definition context_manager : TransactionManager context := {|
  get_main_transaction_id := fun s => (main_id s, s);
  get_transaction_id := fun s => (current_id s, s)
|}.

(** A unit of work nested in another one. *)
Definition nested : context := {| main_id := "tx-main"; current_id := "tx-nested" |}.

(** A manager that counts how often it is consulted. *)
Definition auditing_manager : TransactionManager (context * nat) := {|
  get_main_transaction_id := fun s => (main_id s.1, (s.1, S s.2));
  get_transaction_id := fun s => (current_id s.1, (s.1, S s.2))
|}.

(** ** [TransactionalTracer] *)

Module TransactionalTracer.
Section Methods.
Context {St : Type}.

(** The [_transaction_manager] property returns the module's singleton
    [transaction_manager]. *)
Variable transaction_manager : TransactionManager St.

Definition _transaction_manager : TransactionManager St := transaction_manager.

Definition _re_args_with_main (transaction_id checkpoint_id : pyval)
  : M St (gmap string pyval) :=
  call transaction_id :=
    (if is_none transaction_id
     then tm_call (get_main_transaction_id _transaction_manager)
     else ret transaction_id) in
  let checkpoint_id :=
    if is_none checkpoint_id || py_not checkpoint_id
    then PyStr "" else checkpoint_id in
  ret {[ "transaction_id" := transaction_id; "checkpoint_id" := checkpoint_id ]}.

Definition _re_args_with_current (transaction_id checkpoint_id : pyval)
  : M St (gmap string pyval) :=
  call transaction_id :=
    (if is_none transaction_id
     then tm_call (get_transaction_id _transaction_manager)
     else ret transaction_id) in
  let checkpoint_id :=
    if is_none checkpoint_id || py_not checkpoint_id
    then PyStr "" else checkpoint_id in
  ret {[ "transaction_id" := transaction_id; "checkpoint_id" := checkpoint_id ]}.

(** The abstract operations.  [args] are the extra positional
    arguments, [kwargs] the extra keyword arguments. *)

Definition func_error (payload : pyval) (args : list pyval)
    (transaction_id checkpoint_id : pyval) (extra : option (gmap string pyval))
    (kwargs : gmap string pyval) : M St pyval :=
  raise (new_exception NotImplementedError
           "TracingManager must implement method func_error").

Definition tech_error (payload : pyval) (args : list pyval)
    (transaction_id checkpoint_id : pyval) (error : option exn)
    (extra : option (gmap string pyval)) (kwargs : gmap string pyval)
  : M St pyval :=
  raise (new_exception NotImplementedError
           "TracingManager must implement method tech_error").

Definition report_start_external (payload : pyval) (args : list pyval)
    (transaction_id checkpoint_id : pyval) (extra : option (gmap string pyval))
    (kwargs : gmap string pyval) : M St pyval :=
  raise (new_exception NotImplementedError
           "TracingManager must implement method report_start_external").

Definition report_end_external (payload : pyval) (args : list pyval)
    (transaction_id checkpoint_id : pyval) (extra : option (gmap string pyval))
    (kwargs : gmap string pyval) : M St pyval :=
  raise (new_exception NotImplementedError
           "TracingManager must implement method report_end_external").

Definition info (payload : pyval) (args : list pyval)
    (transaction_id checkpoint_id : pyval) (extra : option (gmap string pyval))
    (kwargs : gmap string pyval) : M St pyval :=
  raise (new_exception NotImplementedError
           "TracingManager must implement method info").

Definition debug (payload : pyval) (args : list pyval)
    (transaction_id checkpoint_id : pyval) (extra : option (gmap string pyval))
    (kwargs : gmap string pyval) : M St pyval :=
  raise (new_exception NotImplementedError
           "TracingManager must implement method debug").

Definition warning (payload : pyval) (args : list pyval)
    (transaction_id checkpoint_id : pyval) (extra : option (gmap string pyval))
    (kwargs : gmap string pyval) : M St pyval :=
  raise (new_exception NotImplementedError
           "TracingManager must implement method warning").

Definition error (payload : pyval) (args : list pyval)
    (transaction_id checkpoint_id : pyval) (extra : option (gmap string pyval))
    (kwargs : gmap string pyval) : M St pyval :=
  raise (new_exception NotImplementedError
           "TracingManager must implement method error").

Definition critical (payload : pyval) (args : list pyval)
    (transaction_id checkpoint_id : pyval) (extra : option (gmap string pyval))
    (kwargs : gmap string pyval) : M St pyval :=
  raise (new_exception NotImplementedError
           "TracingManager must implement method critical").
End Methods.
End TransactionalTracer.

(** ** [ServiceTracer] *)

Module ServiceTracer.
Section Methods.
Context {St : Type}.

Definition info (payload : pyval) (args : list pyval) (checkpoint_id : pyval)
    (extra : option (gmap string pyval)) (kwargs : gmap string pyval)
  : M St pyval :=
  raise (new_exception NotImplementedError
           "TracingManager must implement method info").

Definition debug (payload : pyval) (args : list pyval) (checkpoint_id : pyval)
    (extra : option (gmap string pyval)) (kwargs : gmap string pyval)
  : M St pyval :=
  raise (new_exception NotImplementedError
           "TracingManager must implement method debug").

Definition warning (payload : pyval) (args : list pyval) (checkpoint_id : pyval)
    (extra : option (gmap string pyval)) (kwargs : gmap string pyval)
  : M St pyval :=
  raise (new_exception NotImplementedError
           "TracingManager must implement method warning").

Definition error (payload : pyval) (args : list pyval) (checkpoint_id : pyval)
    (extra : option (gmap string pyval)) (kwargs : gmap string pyval)
  : M St pyval :=
  raise (new_exception NotImplementedError
           "TracingManager must implement method error").

Definition critical (payload : pyval) (args : list pyval) (checkpoint_id : pyval)
    (extra : option (gmap string pyval)) (kwargs : gmap string pyval)
  : M St pyval :=
  raise (new_exception NotImplementedError
           "TracingManager must implement method critical").
End Methods.
End ServiceTracer.

(** An operation fails fast: in every state it raises an instance of
    [NotImplementedError] carrying the message for [name], and leaves
    the state alone. *)
Definition fails_fast {St A} (m : M St A) (name : string) : Prop :=
  forall s, exists e,
    m s = (Raises e, s) /\
    isinstance e NotImplementedError = true /\
    exn_message e = Some ("TracingManager must implement method " ++ name).

(** ** Domain exceptions *)

(** Modelled from the spec: [DomainException.__init__(keyname, message)]
    of [bisslog/exceptions/domain_exception.py], which is not among the
    sources: the instance carries the two fields [keyname] and [message];
    [NotFound] and [NotAllowed] inherit the constructor, so [cls] is the
    class being instantiated.  [args] is what [BaseException.__new__]
    records. *)
Definition domain_exception (cls : pyclass) (keyname message : string) : exn :=
  mk_exn cls [PyStr keyname; PyStr message]
    {[ "keyname" := PyStr keyname; "message" := PyStr message ]}.

(** Modelled from the spec: the constructor call [cls(keyname, message)]
    for [cls] one of [DomainException], [NotFound], [NotAllowed]. *)
Definition new_domain_exception {St} (cls : pyclass) (keyname message : string)
  : M St exn :=
  ret (domain_exception cls keyname message).

(** The checkpoint a helper hands on: [""] for [None] and for [""]. *)
Definition normalized_checkpoint (checkpoint_id : option string) : string :=
  default "" checkpoint_id.

(** The identifier pair a helper returns. *)
Definition id_pair (transaction_id checkpoint_id : string) : gmap string pyval :=
  {[ "transaction_id" := PyStr transaction_id;
     "checkpoint_id" := PyStr checkpoint_id ]}.

(** The value under [key] is a string: present, and not [None]. *)
Definition string_valued (d : gmap string pyval) (key : string) : Prop :=
  exists v, d !! key = Some (PyStr v).

(** A raised [c(msg)] reaches the handler of [except d]. *)
Definition caught_as (St A : Type) (c d : pyclass) : Prop :=
  forall (msg : string) (handler : exn -> M St A) (s : St),
    try_except (raise (new_exception c msg)) d handler s
    = handler (new_exception c msg) s.

(** The abstract operations of [ServiceTracer], each applied to its
    arguments and listed under its name. *)
Definition service_operations {St} (payload : pyval) (args : list pyval)
    (checkpoint_id : pyval) (extra : option (gmap string pyval))
    (kwargs : gmap string pyval) : list (string * M St pyval) :=
  [ ("info", ServiceTracer.info payload args checkpoint_id extra kwargs);
    ("debug", ServiceTracer.debug payload args checkpoint_id extra kwargs);
    ("warning", ServiceTracer.warning payload args checkpoint_id extra kwargs);
    ("error", ServiceTracer.error payload args checkpoint_id extra kwargs);
    ("critical", ServiceTracer.critical payload args checkpoint_id extra kwargs) ].

(** The abstract operations of [TransactionalTracer], likewise. *)
Definition transactional_operations {St} (payload : pyval) (args : list pyval)
    (transaction_id checkpoint_id : pyval) (error : option exn)
    (extra : option (gmap string pyval)) (kwargs : gmap string pyval)
  : list (string * M St pyval) :=
  [ ("func_error",
     TransactionalTracer.func_error payload args transaction_id checkpoint_id extra kwargs);
    ("tech_error",
     TransactionalTracer.tech_error payload args transaction_id checkpoint_id error
       extra kwargs);
    ("report_start_external",
     TransactionalTracer.report_start_external payload args transaction_id checkpoint_id
       extra kwargs);
    ("report_end_external",
     TransactionalTracer.report_end_external payload args transaction_id checkpoint_id
       extra kwargs);
    ("info",
     TransactionalTracer.info payload args transaction_id checkpoint_id extra kwargs);
    ("debug",
     TransactionalTracer.debug payload args transaction_id checkpoint_id extra kwargs);
    ("warning",
     TransactionalTracer.warning payload args transaction_id checkpoint_id extra kwargs);
    ("error",
     TransactionalTracer.error payload args transaction_id checkpoint_id extra kwargs);
    ("critical",
     TransactionalTracer.critical payload args transaction_id checkpoint_id extra kwargs) ].

(** The classes of the two exception taxonomies. *)
Definition taxonomy_classes : list pyclass :=
  filter (fun c => issubclass c DomainException = true \/ ext_family c = true)
         all_classes.

(** A manager built from its two getters. *)
Definition manager_of {St} (get_main get_current : St -> string * St)
  : TransactionManager St :=
  {| get_main_transaction_id := get_main; get_transaction_id := get_current |}.

(** * Properties *)

(** ** The class hierarchy *)

Lemma issubclass_refl c : issubclass c c = true.
Proof. destruct c; vm_compute; reflexivity. Qed.

Lemma issubclass_base c b d :
  base c = Some b -> issubclass b d = true -> issubclass c d = true.
Proof.
  destruct c; simpl; intros Hb; inversion Hb; subst b; clear Hb;
    destruct d; vm_compute; intros H; first [reflexivity | exact H].
Qed.

(** [issubclass] decides [inherits]: the fuel of [mro] is enough. *)
Lemma inherits_issubclass c d : inherits c d -> issubclass c d = true.
Proof.
  induction 1 as [c | c b d Hb _ IH].
  - apply issubclass_refl.
  - exact (issubclass_base c b d Hb IH).
Qed.

Lemma issubclass_inherits c d : issubclass c d = true -> inherits c d.
Proof.
  destruct c, d; vm_compute; intros H; try discriminate H; clear H;
    repeat first [ apply inherits_refl
                 | eapply inherits_step; [ reflexivity | ] ].
Qed.

Lemma inherits_trans c d e : inherits c d -> inherits d e -> inherits c e.
Proof.
  induction 1 as [c | c b d Hb _ IH]; intros Hde.
  - exact Hde.
  - eapply inherits_step; [ exact Hb | exact (IH Hde) ].
Qed.

(** Every chain of bases ends in [object]: [mro] never runs out of fuel. *)
Lemma mro_complete c : last (mro c) = Some object_.
Proof. destruct c; vm_compute; reflexivity. Qed.

Lemma ext_family_BaseException d :
  ext_family d = true -> issubclass d BaseException = true.
Proof. destruct d; vm_compute; intros H; first [reflexivity | discriminate H]. Qed.

(** ** The identifier pair *)

Lemma id_pair_transaction_id t c : id_pair t c !! "transaction_id" = Some (PyStr t).
Proof. unfold id_pair. apply lookup_insert_eq. Qed.

Lemma id_pair_checkpoint_id t c : id_pair t c !! "checkpoint_id" = Some (PyStr c).
Proof.
  unfold id_pair. rewrite lookup_insert_ne by discriminate.
  apply lookup_singleton_eq.
Qed.

Lemma id_pair_inj t t' c c' : id_pair t c = id_pair t' c' -> t = t' /\ c = c'.
Proof.
  intros H. split.
  - assert (Ht := id_pair_transaction_id t c). rewrite H in Ht.
    rewrite id_pair_transaction_id in Ht. congruence.
  - assert (Hc := id_pair_checkpoint_id t c). rewrite H in Hc.
    rewrite id_pair_checkpoint_id in Hc. congruence.
Qed.

(** ** The resolution helpers, unfolded *)

Section Helpers.
Context {St : Type} (tm : TransactionManager St).

Lemma checkpoint_normalized (cid : option string) :
  (if is_none (of_optional_str cid) || py_not (of_optional_str cid)
   then PyStr "" else of_optional_str cid)
  = PyStr (normalized_checkpoint cid).
Proof. destruct cid as [[|a c]|]; reflexivity. Qed.

Lemma re_args_with_main_eq (tid cid : option string) (s : St) :
  TransactionalTracer._re_args_with_main tm (of_optional_str tid) (of_optional_str cid) s
  = match tid with
    | None =>
        (Returns (id_pair (get_main_transaction_id tm s).1 (normalized_checkpoint cid)),
         (get_main_transaction_id tm s).2)
    | Some t => (Returns (id_pair t (normalized_checkpoint cid)), s)
    end.
Proof.
  unfold TransactionalTracer._re_args_with_main,
    TransactionalTracer._transaction_manager, bind, ret, tm_call.
  rewrite checkpoint_normalized.
  destruct tid as [t|]; simpl; [reflexivity|].
  destruct (get_main_transaction_id tm s) as [r s']; reflexivity.
Qed.

Lemma re_args_with_current_eq (tid cid : option string) (s : St) :
  TransactionalTracer._re_args_with_current tm (of_optional_str tid) (of_optional_str cid) s
  = match tid with
    | None =>
        (Returns (id_pair (get_transaction_id tm s).1 (normalized_checkpoint cid)),
         (get_transaction_id tm s).2)
    | Some t => (Returns (id_pair t (normalized_checkpoint cid)), s)
    end.
Proof.
  unfold TransactionalTracer._re_args_with_current,
    TransactionalTracer._transaction_manager, bind, ret, tm_call.
  rewrite checkpoint_normalized.
  destruct tid as [t|]; simpl; [reflexivity|].
  destruct (get_transaction_id tm s) as [r s']; reflexivity.
Qed.
End Helpers.

(** The helpers run on small inputs. *)

Example main_defaults :
  TransactionalTracer._re_args_with_main context_manager PyNone PyNone nested
  = (Returns (id_pair "tx-main" ""), nested).
Proof. reflexivity. Qed.

Example current_defaults :
  TransactionalTracer._re_args_with_current context_manager PyNone PyNone nested
  = (Returns (id_pair "tx-nested" ""), nested).
Proof. reflexivity. Qed.

Example main_explicit :
  TransactionalTracer._re_args_with_main context_manager (PyStr "tx-7") (PyStr "step-2") nested
  = (Returns (id_pair "tx-7" "step-2"), nested).
Proof. reflexivity. Qed.

(** A manager that counts its calls is seen to be consulted exactly when
    the transaction id is [None]. *)
Example auditing_manager_consulted :
  (TransactionalTracer._re_args_with_main auditing_manager PyNone PyNone (nested, 0)).2
  = (nested, 1)
  /\ (TransactionalTracer._re_args_with_main auditing_manager (PyStr "") PyNone (nested, 0)).2
  = (nested, 0).
Proof. split; reflexivity. Qed.

(** ** The resolution helpers *)

(** C1: with [transaction_id=None] and [checkpoint_id=None],
    [_re_args_with_main] returns the pair made of the manager's
    [get_main_transaction_id()] and [""], [_re_args_with_current] the pair
    made of the manager's [get_transaction_id()] and [""]; whenever the two
    ids differ, so do the two results. *)
Theorem re_args_default_resolution {St} (tm : TransactionManager St) (s : St) :
  (TransactionalTracer._re_args_with_main tm PyNone PyNone s).1
    = Returns {[ "transaction_id" := PyStr (get_main_transaction_id tm s).1;
                 "checkpoint_id" := PyStr "" ]}
  /\ (TransactionalTracer._re_args_with_current tm PyNone PyNone s).1
    = Returns {[ "transaction_id" := PyStr (get_transaction_id tm s).1;
                 "checkpoint_id" := PyStr "" ]}
  /\ ((get_main_transaction_id tm s).1 <> (get_transaction_id tm s).1 ->
      (TransactionalTracer._re_args_with_main tm PyNone PyNone s).1
      <> (TransactionalTracer._re_args_with_current tm PyNone PyNone s).1).
Proof.
  pose proof (re_args_with_main_eq tm None None s) as Hm.
  pose proof (re_args_with_current_eq tm None None s) as Hc.
  simpl in Hm, Hc. rewrite Hm, Hc. simpl.
  split; [reflexivity | split; [reflexivity |]].
  intros Hne Heq. apply Hne.
  assert (Hd : id_pair (get_main_transaction_id tm s).1 ""
               = id_pair (get_transaction_id tm s).1 "") by congruence.
  exact (proj1 (id_pair_inj _ _ _ _ Hd)).
Qed.

Lemma re_args_default_resolution_witness :
  (get_main_transaction_id context_manager nested).1
    <> (get_transaction_id context_manager nested).1
  /\ (TransactionalTracer._re_args_with_main context_manager PyNone PyNone nested).1
     <> (TransactionalTracer._re_args_with_current context_manager PyNone PyNone nested).1.
Proof.
  assert (H : (get_main_transaction_id context_manager nested).1
              <> (get_transaction_id context_manager nested).1)
    by (simpl; discriminate).
  split; [exact H |].
  exact (proj2 (proj2 (re_args_default_resolution context_manager nested)) H).
Defined.

(** C2: whatever the optional [transaction_id] and [checkpoint_id] and
    whatever the manager's state, both helpers return a dict whose
    ["transaction_id"] and ["checkpoint_id"] are strings, never [None]. *)
Theorem re_args_never_none {St} (tm : TransactionManager St)
    (tid cid : option string) (s : St) :
  (exists d,
     (TransactionalTracer._re_args_with_main tm
        (of_optional_str tid) (of_optional_str cid) s).1 = Returns d
     /\ string_valued d "transaction_id" /\ string_valued d "checkpoint_id")
  /\ (exists d,
     (TransactionalTracer._re_args_with_current tm
        (of_optional_str tid) (of_optional_str cid) s).1 = Returns d
     /\ string_valued d "transaction_id" /\ string_valued d "checkpoint_id").
Proof.
  rewrite re_args_with_main_eq, re_args_with_current_eq.
  split; destruct tid as [t|]; simpl; eexists; (split; [reflexivity |]);
    split; eexists; first [ apply id_pair_transaction_id | apply id_pair_checkpoint_id ].
Qed.

(** C4: for every [transaction_id], a helper called with
    [checkpoint_id=""] answers exactly as with [checkpoint_id=None], with
    ["checkpoint_id": ""] in the result; more generally the checkpoint a
    helper returns, given back to it, is returned unchanged. *)
Theorem re_args_checkpoint_idempotent {St} (tm : TransactionManager St)
    (tid cid : option string) (s : St) :
  let main := TransactionalTracer._re_args_with_main tm (of_optional_str tid) in
  let current := TransactionalTracer._re_args_with_current tm (of_optional_str tid) in
  (main (PyStr "") s = main PyNone s
   /\ exists d, (main (PyStr "") s).1 = Returns d
                /\ d !! "checkpoint_id" = Some (PyStr ""))
  /\ (current (PyStr "") s = current PyNone s
   /\ exists d, (current (PyStr "") s).1 = Returns d
                /\ d !! "checkpoint_id" = Some (PyStr ""))
  /\ main (PyStr (normalized_checkpoint cid)) s = main (of_optional_str cid) s
  /\ current (PyStr (normalized_checkpoint cid)) s = current (of_optional_str cid) s.
Proof.
  intros main current. subst main current.
  pose proof (re_args_with_main_eq tm tid (Some "") s) as Hm.
  pose proof (re_args_with_current_eq tm tid (Some "") s) as Hc.
  pose proof (re_args_with_main_eq tm tid None s) as Hm0.
  pose proof (re_args_with_current_eq tm tid None s) as Hc0.
  pose proof (re_args_with_main_eq tm tid (Some (normalized_checkpoint cid)) s) as Hmn.
  pose proof (re_args_with_current_eq tm tid (Some (normalized_checkpoint cid)) s) as Hcn.
  pose proof (re_args_with_main_eq tm tid cid s) as Hm1.
  pose proof (re_args_with_current_eq tm tid cid s) as Hc1.
  cbn [of_optional_str] in Hm, Hc, Hm0, Hc0, Hmn, Hcn.
  rewrite Hm, Hc, Hm0, Hc0, Hmn, Hcn, Hm1, Hc1.
  repeat split; try reflexivity;
    destruct tid as [t|]; simpl; eexists; split;
      first [ reflexivity | apply id_pair_checkpoint_id ].
Qed.

(** C6: an explicit empty [transaction_id] is kept as it is, for every
    [checkpoint_id] and without a call to the manager (whatever the
    manager does when called, its state is untouched); only [None] is
    resolved from the manager.  For [checkpoint_id], [None] and [""] both
    become [""]. *)
Theorem re_args_empty_transaction_id_kept {St} (tm : TransactionManager St)
    (cid : option string) (s : St) :
  TransactionalTracer._re_args_with_main tm (PyStr "") (of_optional_str cid) s
    = (Returns (id_pair "" (normalized_checkpoint cid)), s)
  /\ TransactionalTracer._re_args_with_current tm (PyStr "") (of_optional_str cid) s
    = (Returns (id_pair "" (normalized_checkpoint cid)), s)
  /\ TransactionalTracer._re_args_with_main tm PyNone (of_optional_str cid) s
    = (Returns (id_pair (get_main_transaction_id tm s).1 (normalized_checkpoint cid)),
       (get_main_transaction_id tm s).2)
  /\ TransactionalTracer._re_args_with_current tm PyNone (of_optional_str cid) s
    = (Returns (id_pair (get_transaction_id tm s).1 (normalized_checkpoint cid)),
       (get_transaction_id tm s).2)
  /\ normalized_checkpoint None = "" /\ normalized_checkpoint (Some "") = "".
Proof.
  repeat split.
  - exact (re_args_with_main_eq tm (Some "") cid s).
  - exact (re_args_with_current_eq tm (Some "") cid s).
  - exact (re_args_with_main_eq tm None cid s).
  - exact (re_args_with_current_eq tm None cid s).
Qed.

(** C7: with a [transaction_id] other than [None] the two helpers agree
    and ignore the transaction context: for any two managers in any two
    states, all four calls return the pair of the given id and the
    normalized checkpoint. *)
Theorem re_args_explicit_id_context_independent {St1 St2}
    (tm1 : TransactionManager St1) (tm2 : TransactionManager St2)
    (s1 : St1) (s2 : St2) (t : string) (cid : option string) :
  let d := {[ "transaction_id" := PyStr t;
              "checkpoint_id" := PyStr (normalized_checkpoint cid) ]} in
  (TransactionalTracer._re_args_with_main tm1 (PyStr t) (of_optional_str cid) s1).1
    = Returns d
  /\ (TransactionalTracer._re_args_with_current tm1 (PyStr t) (of_optional_str cid) s1).1
    = Returns d
  /\ (TransactionalTracer._re_args_with_main tm2 (PyStr t) (of_optional_str cid) s2).1
    = Returns d
  /\ (TransactionalTracer._re_args_with_current tm2 (PyStr t) (of_optional_str cid) s2).1
    = Returns d.
Proof.
  intros d; subst d.
  pose proof (re_args_with_main_eq tm1 (Some t) cid s1) as H1.
  pose proof (re_args_with_current_eq tm1 (Some t) cid s1) as H2.
  pose proof (re_args_with_main_eq tm2 (Some t) cid s2) as H3.
  pose proof (re_args_with_current_eq tm2 (Some t) cid s2) as H4.
  cbn [of_optional_str] in H1, H2, H3, H4.
  rewrite H1, H2, H3, H4. repeat split.
Qed.



(** ** The abstract operations *)

(** C3: each abstract operation of [ServiceTracer] and of
    [TransactionalTracer], entered without an override, raises
    [NotImplementedError] for all arguments instead of returning. *)
Theorem abstract_operations_fail_fast {St : Type}
    (payload : pyval) (args : list pyval) (transaction_id checkpoint_id : pyval)
    (error : option exn) (extra : option (gmap string pyval))
    (kwargs : gmap string pyval) :
  (fails_fast (St:=St) (ServiceTracer.info payload args checkpoint_id extra kwargs) "info"
   /\ fails_fast (St:=St) (ServiceTracer.debug payload args checkpoint_id extra kwargs) "debug"
   /\ fails_fast (St:=St) (ServiceTracer.warning payload args checkpoint_id extra kwargs) "warning"
   /\ fails_fast (St:=St) (ServiceTracer.error payload args checkpoint_id extra kwargs) "error"
   /\ fails_fast (St:=St) (ServiceTracer.critical payload args checkpoint_id extra kwargs) "critical")
  /\ (fails_fast (St:=St)
        (TransactionalTracer.info payload args transaction_id checkpoint_id extra kwargs)
        "info"
   /\ fails_fast (St:=St)
        (TransactionalTracer.debug payload args transaction_id checkpoint_id extra kwargs)
        "debug"
   /\ fails_fast (St:=St)
        (TransactionalTracer.warning payload args transaction_id checkpoint_id extra kwargs)
        "warning"
   /\ fails_fast (St:=St)
        (TransactionalTracer.error payload args transaction_id checkpoint_id extra kwargs)
        "error"
   /\ fails_fast (St:=St)
        (TransactionalTracer.critical payload args transaction_id checkpoint_id extra kwargs)
        "critical"
   /\ fails_fast (St:=St)
        (TransactionalTracer.func_error payload args transaction_id checkpoint_id extra kwargs)
        "func_error"
   /\ fails_fast (St:=St)
        (TransactionalTracer.tech_error payload args transaction_id checkpoint_id error
           extra kwargs)
        "tech_error"
   /\ fails_fast (St:=St)
        (TransactionalTracer.report_start_external payload args transaction_id checkpoint_id
           extra kwargs)
        "report_start_external"
   /\ fails_fast (St:=St)
        (TransactionalTracer.report_end_external payload args transaction_id checkpoint_id
           extra kwargs)
        "report_end_external").
Proof.
  repeat split; intros s; eexists; (split; [reflexivity |]); split;
    vm_compute; reflexivity.
Qed.

(** ** Domain exceptions *)

(** C8: for all strings [keyname] and [message], constructing
    [DomainException(keyname, message)], [NotFound(keyname, message)] or
    [NotAllowed(keyname, message)] returns (it does not raise, and has no
    effect on the state) an instance of that class whose [keyname] and
    [message] attributes are the given ones. *)
Theorem domain_exception_carries_fields {St : Type} (keyname message : string) (s : St) :
  Forall (fun cls =>
            exists e,
              new_domain_exception cls keyname message s = (Returns e, s)
              /\ exn_class e = cls
              /\ getattr e "keyname" = Some (PyStr keyname)
              /\ getattr e "message" = Some (PyStr message))
         [DomainException; NotFound; NotAllowed].
Proof.
  repeat constructor; eexists; (split; [reflexivity |]);
    (split; [reflexivity |]); unfold getattr, domain_exception; simpl;
    (split; [ apply lookup_insert_eq
            | rewrite lookup_insert_ne by discriminate; apply lookup_singleton_eq ]).
Qed.

(** C9: [NotFound] and [NotAllowed] are subclasses of [DomainException],
    itself a subclass of [Exception]; so a raised [NotFound(k, m)] or
    [NotAllowed(k, m)] reaches the handler of [except DomainException]. *)
Theorem domain_exceptions_caught_by_base {St A : Type}
    (k m : string) (handler : exn -> M St A) (s : St) :
  issubclass NotFound DomainException = true
  /\ issubclass NotAllowed DomainException = true
  /\ issubclass DomainException Exception = true
  /\ try_except (call e := new_domain_exception NotFound k m in raise e)
       DomainException handler s
     = handler (domain_exception NotFound k m) s
  /\ try_except (call e := new_domain_exception NotAllowed k m in raise e)
       DomainException handler s
     = handler (domain_exception NotAllowed k m) s.
Proof.
  repeat split; try (vm_compute; reflexivity).
Qed.

(** ** External-interaction exceptions *)

(** C10: the external-interaction family is a tree under single
    inheritance, rooted at [ExternalInteractionError]: every class of the
    family other than the root has its one direct base in the family and
    descends from the root.  A raised exception of class [c] reaches the
    handler of [except d] for every ancestor [d] of [c] in the family; in
    particular for the four pairs the tests raise and catch. *)
Theorem ext_exceptions_caught_by_ancestors {St A : Type} :
  (forall c, ext_family c = true ->
     inherits c ExternalInteractionError
     /\ (c = ExternalInteractionError
         \/ exists b, base c = Some b /\ ext_family b = true))
  /\ (forall c d, ext_family d = true -> inherits c d -> caught_as St A c d)
  /\ caught_as St A WarningExtException ExternalInteractionError
  /\ caught_as St A ConnectionExtException OperationalErrorExtException
  /\ caught_as St A ExternalDependencyErrorExtException ErrorExtException
  /\ caught_as St A ConfigurationExtException InterfaceExtException.
Proof.
  assert (Hcatch : forall c d, ext_family d = true -> inherits c d -> caught_as St A c d).
  { intros c d Hd Hcd msg handler s.
    unfold try_except, raise, isinstance. simpl.
    rewrite (ext_family_BaseException d Hd), (inherits_issubclass c d Hcd).
    reflexivity. }
  split; [| split; [exact Hcatch |]].
  - intros c Hc. split.
    + apply issubclass_inherits. destruct c; try discriminate Hc; vm_compute; reflexivity.
    + destruct c; try discriminate Hc;
        first [ left; reflexivity | right; eexists; split; reflexivity ].
  - repeat split; apply Hcatch; try reflexivity;
      apply issubclass_inherits; vm_compute; reflexivity.
Qed.

Lemma ext_exceptions_caught_by_ancestors_witness :
  ext_family ErrorExtException = true
  /\ inherits TimeoutExtException ErrorExtException
  /\ caught_as context unit TimeoutExtException ErrorExtException.
Proof.
  assert (Hd : ext_family ErrorExtException = true) by reflexivity.
  assert (Hcd : inherits TimeoutExtException ErrorExtException).
  { eapply inherits_step; [reflexivity |].
    eapply inherits_step; [reflexivity |].
    eapply inherits_step; [reflexivity |].
    apply inherits_refl. }
  split; [exact Hd | split; [exact Hcd |]].
  exact (proj1 (proj2 (@ext_exceptions_caught_by_ancestors context unit))
           TimeoutExtException ErrorExtException Hd Hcd).
Defined.

(** * Further properties of the tracer code *)

(** ** The helpers on arbitrary Python values *)

Lemma checkpoint_branch (cid : pyval) :
  is_none cid || py_not cid = negb (truthy cid).
Proof. destruct cid; reflexivity. Qed.

Lemma pair_lookup_transaction_id (t c : pyval) :
  ({[ "transaction_id" := t; "checkpoint_id" := c ]} : gmap string pyval)
    !! "transaction_id" = Some t.
Proof. apply lookup_insert_eq. Qed.

Lemma pair_lookup_checkpoint_id (t c : pyval) :
  ({[ "transaction_id" := t; "checkpoint_id" := c ]} : gmap string pyval)
    !! "checkpoint_id" = Some c.
Proof. rewrite lookup_insert_ne by discriminate. apply lookup_singleton_eq. Qed.

Section Runs.
Context {St : Type} (tm : TransactionManager St).

Lemma re_args_with_main_run (tid cid : pyval) (s : St) :
  TransactionalTracer._re_args_with_main tm tid cid s
  = (Returns {[ "transaction_id" :=
                  if is_none tid then PyStr (get_main_transaction_id tm s).1 else tid;
                "checkpoint_id" := if truthy cid then cid else PyStr "" ]},
     if is_none tid then (get_main_transaction_id tm s).2 else s).
Proof.
  unfold TransactionalTracer._re_args_with_main,
    TransactionalTracer._transaction_manager, bind, ret, tm_call.
  rewrite checkpoint_branch.
  destruct (is_none tid), (truthy cid); simpl;
    try destruct (get_main_transaction_id tm s) as [r s']; reflexivity.
Qed.

Lemma re_args_with_current_run (tid cid : pyval) (s : St) :
  TransactionalTracer._re_args_with_current tm tid cid s
  = (Returns {[ "transaction_id" :=
                  if is_none tid then PyStr (get_transaction_id tm s).1 else tid;
                "checkpoint_id" := if truthy cid then cid else PyStr "" ]},
     if is_none tid then (get_transaction_id tm s).2 else s).
Proof.
  unfold TransactionalTracer._re_args_with_current,
    TransactionalTracer._transaction_manager, bind, ret, tm_call.
  rewrite checkpoint_branch.
  destruct (is_none tid), (truthy cid); simpl;
    try destruct (get_transaction_id tm s) as [r s']; reflexivity.
Qed.
End Runs.

(** X1: for all argument values, manager and state, each helper returns
    (it never raises) a dict with exactly the two keys
    ["transaction_id"] and ["checkpoint_id"]. *)
Theorem re_args_result_keys {St} (tm : TransactionManager St)
    (tid cid : pyval) (s : St) :
  (exists d, (TransactionalTracer._re_args_with_main tm tid cid s).1 = Returns d
             /\ dom d = ({[ "transaction_id"; "checkpoint_id" ]} : gset string))
  /\ (exists d, (TransactionalTracer._re_args_with_current tm tid cid s).1 = Returns d
             /\ dom d = ({[ "transaction_id"; "checkpoint_id" ]} : gset string)).
Proof.
  rewrite re_args_with_main_run, re_args_with_current_run.
  split; eexists; (split; [reflexivity |]);
    rewrite dom_insert_L, dom_singleton_L; reflexivity.
Qed.

(** X2: what the helpers do with a [None], [bool], [int] or [str] in
    either argument, annotated or not.  The checkpoint is
    decided by its truth value alone: a truthy checkpoint is handed on as
    it is, every falsy one ([None], [""], [0], [False]) becomes [""].  The
    transaction id is decided by [is None] alone: any other value, also a
    falsy one, is handed on as it is. *)
Theorem re_args_value_semantics {St} (tm : TransactionManager St)
    (tid cid : pyval) (s : St) :
  (exists d, (TransactionalTracer._re_args_with_main tm tid cid s).1 = Returns d
     /\ d !! "transaction_id"
        = Some (if is_none tid then PyStr (get_main_transaction_id tm s).1 else tid)
     /\ d !! "checkpoint_id" = Some (if truthy cid then cid else PyStr ""))
  /\ (exists d, (TransactionalTracer._re_args_with_current tm tid cid s).1 = Returns d
     /\ d !! "transaction_id"
        = Some (if is_none tid then PyStr (get_transaction_id tm s).1 else tid)
     /\ d !! "checkpoint_id" = Some (if truthy cid then cid else PyStr "")).
Proof.
  rewrite re_args_with_main_run, re_args_with_current_run.
  split; eexists; (split; [reflexivity |]); split;
    first [ apply pair_lookup_transaction_id | apply pair_lookup_checkpoint_id ].
Qed.

(** X3: also for [bool] and [int] arguments, which the annotation
    [Optional[str]] leaves out, no value of the returned dict is [None],
    and the checkpoint is [""] or truthy. *)
Theorem re_args_no_none_for_any_value {St} (tm : TransactionManager St)
    (tid cid : pyval) (s : St) :
  Forall (fun helper : pyval -> pyval -> M St (gmap string pyval) =>
            exists d t c,
              (helper tid cid s).1 = Returns d
              /\ d !! "transaction_id" = Some t /\ is_none t = false
              /\ d !! "checkpoint_id" = Some c /\ is_none c = false
              /\ (c = PyStr "" \/ truthy c = true))
         [ TransactionalTracer._re_args_with_main tm;
           TransactionalTracer._re_args_with_current tm ].
Proof.
  repeat constructor.
  - rewrite re_args_with_main_run. do 3 eexists.
    split; [reflexivity |].
    split; [apply pair_lookup_transaction_id |].
    split; [destruct tid; reflexivity |].
    split; [apply pair_lookup_checkpoint_id |].
    destruct (truthy cid) eqn:Hc.
    + split; [destruct cid; first [discriminate Hc | reflexivity] | right; exact Hc].
    + split; [reflexivity | left; reflexivity].
  - rewrite re_args_with_current_run. do 3 eexists.
    split; [reflexivity |].
    split; [apply pair_lookup_transaction_id |].
    split; [destruct tid; reflexivity |].
    split; [apply pair_lookup_checkpoint_id |].
    destruct (truthy cid) eqn:Hc.
    + split; [destruct cid; first [discriminate Hc | reflexivity] | right; exact Hc].
    + split; [reflexivity | left; reflexivity].
Qed.

(** X4: the two helpers return the same dict exactly when the
    transaction id is given (not [None]) or the manager's main and current
    ids coincide. *)
Theorem re_args_helpers_agree_iff {St} (tm : TransactionManager St)
    (tid cid : pyval) (s : St) :
  (TransactionalTracer._re_args_with_main tm tid cid s).1
  = (TransactionalTracer._re_args_with_current tm tid cid s).1
  <-> (is_none tid = false
       \/ (get_main_transaction_id tm s).1 = (get_transaction_id tm s).1).
Proof.
  rewrite re_args_with_main_run, re_args_with_current_run.
  cbn [fst].
  destruct (is_none tid) eqn:Hnone; split.
  - intros Heq. right.
    assert (Hl : forall d1 d2 : gmap string pyval,
              @Returns (gmap string pyval) d1 = Returns d2 ->
              d1 !! "transaction_id" = d2 !! "transaction_id")
      by (intros d1 d2 Hd; inversion Hd; reflexivity).
    apply Hl in Heq.
    rewrite !pair_lookup_transaction_id in Heq. congruence.
  - intros [Habs | Hid]; [discriminate Habs | rewrite Hid; reflexivity].
  - intros _. left. reflexivity.
  - intros _. reflexivity.
Qed.

(** X5: the helpers are idempotent on what they return.  The two values
    of a returned dict, passed again to either helper under any manager in
    any state, give the same dict back with no call to the manager. *)
Theorem re_args_stable_on_result {St St'} (tm : TransactionManager St)
    (tm' : TransactionManager St') (tid cid : pyval) (s : St) (s' : St') :
  Forall (fun helper : pyval -> pyval -> M St (gmap string pyval) =>
            exists d t c,
              (helper tid cid s).1 = Returns d
              /\ d !! "transaction_id" = Some t
              /\ d !! "checkpoint_id" = Some c
              /\ TransactionalTracer._re_args_with_main tm' t c s' = (Returns d, s')
              /\ TransactionalTracer._re_args_with_current tm' t c s' = (Returns d, s'))
         [ TransactionalTracer._re_args_with_main tm;
           TransactionalTracer._re_args_with_current tm ].
Proof.
  assert (Hfix : forall t c : pyval,
            is_none t = false -> (c = PyStr "" \/ truthy c = true) ->
            TransactionalTracer._re_args_with_main tm' t c s'
              = (Returns {[ "transaction_id" := t; "checkpoint_id" := c ]}, s')
            /\ TransactionalTracer._re_args_with_current tm' t c s'
              = (Returns {[ "transaction_id" := t; "checkpoint_id" := c ]}, s')).
  { intros t c Ht Hc.
    rewrite re_args_with_main_run, re_args_with_current_run, Ht.
    destruct Hc as [-> | ->]; split; reflexivity. }
  assert (Hcp : (if truthy cid then cid else PyStr "") = PyStr ""
                \/ truthy (if truthy cid then cid else PyStr "") = true).
  { destruct (truthy cid) eqn:Hc; [right; exact Hc | left; reflexivity]. }
  repeat constructor.
  - rewrite re_args_with_main_run. do 3 eexists.
    split; [reflexivity |].
    split; [apply pair_lookup_transaction_id |].
    split; [apply pair_lookup_checkpoint_id |].
    apply Hfix; [destruct tid; reflexivity | exact Hcp].
  - rewrite re_args_with_current_run. do 3 eexists.
    split; [reflexivity |].
    split; [apply pair_lookup_transaction_id |].
    split; [apply pair_lookup_checkpoint_id |].
    apply Hfix; [destruct tid; reflexivity | exact Hcp].
Qed.

(** X8: each helper depends on one getter only.  Replacing the other
    getter of the manager changes neither the outcome nor the final state
    of a call, and the manager is left in the state of that one getter
    call when the transaction id is [None], in its initial state
    otherwise. *)
Theorem re_args_single_getter {St} (get_main get_current other : St -> string * St)
    (tid cid : pyval) (s : St) :
  (TransactionalTracer._re_args_with_main (manager_of get_main get_current) tid cid s
   = TransactionalTracer._re_args_with_main (manager_of get_main other) tid cid s
   /\ (TransactionalTracer._re_args_with_main (manager_of get_main get_current) tid cid s).2
      = if is_none tid then (get_main s).2 else s)
  /\ (TransactionalTracer._re_args_with_current (manager_of get_main get_current) tid cid s
   = TransactionalTracer._re_args_with_current (manager_of other get_current) tid cid s
   /\ (TransactionalTracer._re_args_with_current (manager_of get_main get_current) tid cid s).2
      = if is_none tid then (get_current s).2 else s).
Proof.
  rewrite !re_args_with_main_run, !re_args_with_current_run. simpl.
  repeat split.
Qed.

(** ** The abstract operations under [except] clauses *)

Lemma taxonomy_classes_eq :
  taxonomy_classes
  = [ DomainException; NotFound; NotAllowed;
      ExternalInteractionError; WarningExtException; ErrorExtException;
      InterfaceExtException; ConfigurationExtException;
      ExternalDependencyErrorExtException; DataErrorExtException;
      OperationalErrorExtException; ConnectionExtException;
      TimeoutExtException; AuthenticationExtException;
      AuthorizationExtException; DeliveryExtException;
      IntegrityErrorExtException; ProgrammingErrorExtException;
      NotSupportedErrorExtException; InvalidDataExtException;
      InternalErrorExtException; ProcessingExtException ].
Proof. vm_compute. reflexivity. Qed.

(** Proves [Forall P l] for a list given by its elements, each with [tac]. *)
Ltac forall_list tac :=
  repeat first [ apply List.Forall_nil | apply List.Forall_cons; [ tac | ] ].

(** X7: the failure of an abstract operation, of either contract, is an
    ordinary [NotImplementedError] naming the operation: a caller's
    [except NotImplementedError], [except RuntimeError], [except Exception]
    or [except BaseException] clause receives it, while an [except] clause
    for any class of the domain or external-interaction taxonomy lets it
    through unchanged. *)
Theorem abstract_failure_under_except {St : Type}
    (payload : pyval) (args : list pyval) (transaction_id checkpoint_id : pyval)
    (error : option exn) (extra : option (gmap string pyval))
    (kwargs : gmap string pyval) (handler : exn -> M St pyval) (s : St) :
  Forall (fun named : string * M St pyval =>
            let e := new_exception NotImplementedError
                       ("TracingManager must implement method " ++ named.1) in
            named.2 s = (Raises e, s)
            /\ Forall (fun d => try_except named.2 d handler s = handler e s)
                 [NotImplementedError; RuntimeError; Exception; BaseException]
            /\ Forall (fun d => try_except named.2 d handler s = (Raises e, s))
                 taxonomy_classes)
         (service_operations payload args checkpoint_id extra kwargs
          ++ transactional_operations payload args transaction_id checkpoint_id
               error extra kwargs).
Proof.
  rewrite taxonomy_classes_eq.
  unfold service_operations, transactional_operations. simpl app.
  forall_list ltac:(cbv beta zeta; cbn [fst snd];
                    split; [reflexivity |];
                    split; forall_list ltac:(vm_compute; reflexivity)).
Qed.
